(** * Fivetran HVR manager: the connector control-plane client

    A shallow embedding of [backend/fivetran_client.py] (the transport
    client, class [FivetranClient]) and [backend/api.py] (the domain
    service, class [FivetranAPI]), with the properties of the design
    document stated over it.

    Python values are a small inductive type, exceptions are values of a
    record type, and every method is a computation over an explicit
    world that records the HTTP requests sent and the log lines
    written.  The remote service is a function from requests to
    outcomes, shared by all definitions. *)

From Stdlib Require Import String Ascii List ZArith Bool Lia DecimalString.
Import ListNotations.
Local Open Scope string_scope.
Local Open Scope Z_scope.
Set Warnings "-register-all".

(** ** Python values *)

(** A [float] as the JSON decoder can produce it. *)
Inductive pyfloat : Type :=
| FNan
| FInf (negative : bool)
| FFinite (mantissa exponent : Z).

(** The values that [json.loads] produces and that the two classes build:
    [None], [bool], [int], [float], [str], [list] and [dict] with string
    keys.  A dict keeps its items in insertion order. *)
Inductive pyval : Type :=
| PNone
| PBool (b : bool)
| PInt (n : Z)
| PFloat (f : pyfloat)
| PStr (s : string)
| PList (items : list pyval)
| PDict (items : list (string * pyval)).

(** [type(v).__name__] *)
Definition type_name (v : pyval) : string :=
  match v with
  | PNone => "NoneType"
  | PBool _ => "bool"
  | PInt _ => "int"
  | PFloat _ => "float"
  | PStr _ => "str"
  | PList _ => "list"
  | PDict _ => "dict"
  end.

(** [bool(v)]: the truth value that [if v], [not v] and the conditional
    expression test. *)
Definition py_bool (v : pyval) : bool :=
  match v with
  | PNone => false
  | PBool b => b
  | PInt n => negb (n =? 0)
  | PFloat (FFinite m _) => negb (m =? 0)
  | PFloat _ => true
  | PStr s => negb (String.eqb s "")
  | PList l => match l with [] => false | _ :: _ => true end
  | PDict d => match d with [] => false | _ :: _ => true end
  end.

(** Lookup of a key among the items of a dict. *)
Fixpoint dict_get (d : list (string * pyval)) (k : string) : option pyval :=
  match d with
  | [] => None
  | (k', v) :: d' => if String.eqb k' k then Some v else dict_get d' k
  end.

(** [k in v] and [v[k]] on a value that is a dict; [None] when [v] is
    not a dict or has no such key. *)
Definition py_item (v : pyval) (k : string) : option pyval :=
  match v with
  | PDict d => dict_get d k
  | _ => None
  end.

(** [needle in hay] on strings. *)
Fixpoint contains (hay needle : string) : bool :=
  if String.prefix needle hay then true
  else match hay with
       | EmptyString => false
       | String _ hay' => contains hay' needle
       end.

(** Decimal rendering of an integer, as an f-string renders it. *)
Definition string_of_Z (n : Z) : string :=
  NilZero.string_of_int (Z.to_int n).

(** ** Exceptions *)

(** The exception classes that the two modules can meet.  The first five
    belong to [requests.exceptions]; [RequestException] stands for the
    base class itself and its remaining subclasses. *)
Inductive exc_class : Type :=
| HTTPError
| ConnectionError
| Timeout
| JSONDecodeError
| RequestException
| AttributeError
| TypeError
| ValueError.

(** [issubclass(c, requests.exceptions.RequestException)] *)
Definition is_RequestException (c : exc_class) : bool :=
  match c with
  | HTTPError | ConnectionError | Timeout | JSONDecodeError
  | RequestException => true
  | AttributeError | TypeError | ValueError => false
  end.

(** An instance of [Exception]: its class and the text [str(e)] gives. *)
Record pyexc : Type := mkExc {
  exc_type : exc_class;
  exc_str : string
}.

(** The result of evaluating an expression that touches no state. *)
Inductive outcome (A : Type) : Type :=
| Returned (a : A)
| Raised (e : pyexc).
Arguments Returned {A} a.
Arguments Raised {A} e.

Definition obind {A B} (c : outcome A) (k : A -> outcome B) : outcome B :=
  match c with
  | Returned a => k a
  | Raised e => Raised e
  end.

(** [v.get(k, default)]: only a dict has the method. *)
Definition py_get (v : pyval) (k : string) (default : pyval) : outcome pyval :=
  match v with
  | PDict d =>
      Returned (match dict_get d k with Some x => x | None => default end)
  | _ =>
      Raised (mkExc AttributeError
                ("'" ++ type_name v ++ "' object has no attribute 'get'"))
  end.

(** The one-character strings a [str] yields when iterated. *)
Fixpoint chars (s : string) : list pyval :=
  match s with
  | EmptyString => []
  | String c s' => PStr (String c EmptyString) :: chars s'
  end.

(** The elements [for x in v] runs through. *)
Definition py_iter (v : pyval) : outcome (list pyval) :=
  match v with
  | PList l => Returned l
  | PDict d => Returned (map (fun kv => PStr (fst kv)) d)
  | PStr s => Returned (chars s)
  | _ =>
      Raised (mkExc TypeError
                ("'" ++ type_name v ++ "' object is not iterable"))
  end.

(** ** The world: requests sent and log lines written *)

Record http_request : Type := mkRequest {
  rq_method : string;
  rq_url : string;
  rq_auth : string * string;
  rq_headers : list (string * string);
  rq_json : option pyval;
  rq_timeout : Z
}.

(** A response as [requests] hands it back, after it followed redirects.
    [resp_json] is what [response.json()] does: the decoded body, or the
    decoder's message when the body is not JSON. *)
Record response : Type := mkResponse {
  status_code : Z;
  reason : string;
  resp_url : string;
  resp_json : string + pyval
}.

(** What one call of [requests.request] comes to: an exception (DNS,
    refused connection, timeout, ...) or a response. *)
Inductive http_outcome : Type :=
| NetFail (e : pyexc)
| Responded (r : response).

Inductive logger_name : Type := ClientLogger | ApiLogger.
Inductive log_level : Type := INFO | ERROR.

Record log_record : Type := mkLog {
  lg_logger : logger_name;
  lg_level : log_level;
  lg_text : string
}.

Record world : Type := mkWorld {
  sent : list http_request;
  logged : list log_record
}.

(** A statement: it runs in a world, returns or raises, and leaves a
    world. *)
Definition py (A : Type) : Type := world -> outcome A * world.

Definition ret {A} (a : A) : py A := fun w => (Returned a, w).
Definition raise {A} (e : pyexc) : py A := fun w => (Raised e, w).
Definition lift {A} (o : outcome A) : py A := fun w => (o, w).

Definition bind {A B} (c : py A) (k : A -> py B) : py B :=
  fun w =>
    match c w with
    | (Returned a, w') => k a w'
    | (Raised e, w') => (Raised e, w')
    end.

(** [try: body / except C as e: handler], where [catches] tells the
    classes [C] covers. *)
Definition try_except {A} (body : py A) (catches : exc_class -> bool)
    (handler : pyexc -> py A) : py A :=
  fun w =>
    match body w with
    | (Returned a, w') => (Returned a, w')
    | (Raised e, w') =>
        if catches (exc_type e) then handler e w' else (Raised e, w')
    end.

(** Every class above derives from [Exception]. *)
Definition is_Exception (c : exc_class) : bool := true.

Declare Scope py_scope.
Delimit Scope py_scope with py.
Notation "x <- c ;; k" := (bind c (fun x => k))
  (at level 61, c at next level, right associativity) : py_scope.
Notation "c ;;; k" := (bind c (fun _ => k))
  (at level 61, right associativity) : py_scope.
Notation "x <~ c ;; k" := (obind c (fun x => k))
  (at level 61, c at next level, right associativity) : py_scope.
Local Open Scope py_scope.

Definition log (src : logger_name) (lvl : log_level) (text : string)
  : py unit :=
  fun w => (Returned tt,
            {| sent := sent w; logged := logged w ++ [mkLog src lvl text] |}).

Definition log_error (src : logger_name) (text : string) : py unit :=
  log src ERROR text.
Definition log_info (src : logger_name) (text : string) : py unit :=
  log src INFO text.

(** ** The [requests] library, as far as the client uses it *)

Module requests.

(** [Response.raise_for_status]: an [HTTPError] for a status from 400
    to 599, with the library's message; nothing for any other status. *)
Definition raise_for_status (r : response) : outcome unit :=
  if (400 <=? status_code r) && (status_code r <? 500) then
    Raised (mkExc HTTPError
              (string_of_Z (status_code r) ++ " Client Error: "
               ++ reason r ++ " for url: " ++ resp_url r))
  else if (500 <=? status_code r) && (status_code r <? 600) then
    Raised (mkExc HTTPError
              (string_of_Z (status_code r) ++ " Server Error: "
               ++ reason r ++ " for url: " ++ resp_url r))
  else Returned tt.

(** [Response.json]: the decoded body, or a [JSONDecodeError]. *)
Definition json (r : response) : outcome pyval :=
  match resp_json r with
  | inr v => Returned v
  | inl msg => Raised (mkExc JSONDecodeError msg)
  end.

End requests.

(** ** backend/fivetran_client.py *)

Record FivetranClient : Type := mkClient {
  api_key : string;
  api_secret : string;
  auth : string * string
}.

(** [FivetranClient.__init__] *)
Definition FivetranClient_init (key secret : string) : FivetranClient :=
  {| api_key := key; api_secret := secret; auth := (key, secret) |}.

Module Client.

Definition BASE_URL : string := "https://api.fivetran.com/v1".

Section Remote.

(** The remote service: what [requests.request] comes to for each
    request. *)
Variable remote : http_request -> http_outcome.

(** [requests.request(method=..., url=..., auth=..., headers=...,
    json=..., timeout=...)]: the request goes out, and the call raises
    or returns the response. *)
Definition requests_request (rq : http_request) : py response :=
  fun w =>
    (match remote rq with
     | NetFail e => Raised e
     | Responded r => Returned r
     end,
     {| sent := sent w ++ [rq]; logged := logged w |}).

Definition _make_request (self : FivetranClient)
    (method endpoint : string) (data : option pyval) : py pyval :=
  let url := BASE_URL ++ "/" ++ endpoint in
  let headers := [("Content-Type", "application/json")] in
  try_except
    (response <- requests_request
                   {| rq_method := method;
                      rq_url := url;
                      rq_auth := auth self;
                      rq_headers := headers;
                      rq_json := data;
                      rq_timeout := 30 |} ;;
     lift (requests.raise_for_status response) ;;;
     lift (requests.json response))
    is_RequestException
    (fun e =>
       log_error ClientLogger ("API request failed: " ++ exc_str e) ;;;
       raise e).

(** The [endpoint] that [list_connectors] settles on.  [group_id] is
    [Optional[str]]; [if group_id] tests its truth value, and [None]
    is false. *)
Definition list_connectors_endpoint (group_id : option string) : string :=
  match group_id with
  | Some g =>
      if py_bool (PStr g) then "groups/" ++ g ++ "/connectors"
      else "connectors"
  | None => "connectors"
  end.

Definition list_connectors (self : FivetranClient)
    (group_id : option string) : py pyval :=
  let endpoint := list_connectors_endpoint group_id in
  response <- _make_request self "GET" endpoint None ;;
  data <- lift (py_get response "data" (PDict [])) ;;
  lift (py_get data "items" (PList [])).

Definition get_connector (self : FivetranClient) (connector_id : string)
  : py pyval :=
  response <- _make_request self "GET" ("connectors/" ++ connector_id)
                None ;;
  lift (py_get response "data" (PDict [])).

Definition activate_connector (self : FivetranClient)
    (connector_id : string) : py pyval :=
  let data := PDict [("paused", PBool false)] in
  response <- _make_request self "PATCH" ("connectors/" ++ connector_id)
                (Some data) ;;
  log_info ClientLogger ("Connector " ++ connector_id ++ " activated") ;;;
  lift (py_get response "data" (PDict [])).

Definition pause_connector (self : FivetranClient)
    (connector_id : string) : py pyval :=
  let data := PDict [("paused", PBool true)] in
  response <- _make_request self "PATCH" ("connectors/" ++ connector_id)
                (Some data) ;;
  log_info ClientLogger ("Connector " ++ connector_id ++ " paused") ;;;
  lift (py_get response "data" (PDict [])).

Definition sync_connector (self : FivetranClient)
    (connector_id : string) (force : bool) : py pyval :=
  let endpoint :=
    "connectors/" ++ connector_id ++ "/"
    ++ (if force then "force" else "sync") in
  response <- _make_request self "POST" endpoint None ;;
  log_info ClientLogger
    ("Sync triggered for connector " ++ connector_id) ;;;
  lift (py_get response "data" (PDict [])).

Definition resync_table (self : FivetranClient)
    (connector_id schema table : string) : py pyval :=
  let endpoint :=
    "connectors/" ++ connector_id ++ "/schemas/" ++ schema
    ++ "/tables/" ++ table ++ "/resync" in
  response <- _make_request self "POST" endpoint None ;;
  log_info ClientLogger
    ("Resync triggered for " ++ schema ++ "." ++ table) ;;;
  lift (py_get response "data" (PDict [])).

Definition get_connector_schemas (self : FivetranClient)
    (connector_id : string) : py pyval :=
  response <- _make_request self "GET"
                ("connectors/" ++ connector_id ++ "/schemas") None ;;
  lift (py_get response "data" (PDict [])).

Definition update_connector_schema (self : FivetranClient)
    (connector_id schema table : string) (enabled : bool) : py pyval :=
  let endpoint :=
    "connectors/" ++ connector_id ++ "/schemas/" ++ schema
    ++ "/tables/" ++ table in
  let data := PDict [("enabled", PBool enabled)] in
  response <- _make_request self "PATCH" endpoint (Some data) ;;
  log_info ClientLogger
    ("Table " ++ schema ++ "." ++ table ++ " "
     ++ (if enabled then "enabled" else "disabled")) ;;;
  lift (py_get response "data" (PDict [])).

Definition list_groups (self : FivetranClient) : py pyval :=
  response <- _make_request self "GET" "groups" None ;;
  data <- lift (py_get response "data" (PDict [])) ;;
  lift (py_get data "items" (PList [])).

Definition get_group (self : FivetranClient) (group_id : string)
  : py pyval :=
  response <- _make_request self "GET" ("groups/" ++ group_id) None ;;
  lift (py_get response "data" (PDict [])).

Definition test_connection (self : FivetranClient)
    (connector_id : string) : py pyval :=
  response <- _make_request self "POST"
                ("connectors/" ++ connector_id ++ "/test") None ;;
  lift (py_get response "data" (PDict [])).

End Remote.

End Client.

(** ** backend/api.py *)

Record FivetranAPI : Type := mkAPI {
  client : FivetranClient
}.

(** [FivetranAPI.__init__] *)
Definition FivetranAPI_init (key secret : string) : FivetranAPI :=
  {| client := FivetranClient_init key secret |}.

Module API.

(** [formatted = []], then [formatted.append(f(x))] for each [x]. *)
Fixpoint for_append (f : pyval -> outcome pyval) (xs : list pyval)
    (formatted : list pyval) : outcome (list pyval) :=
  match xs with
  | [] => Returned formatted
  | x :: xs' => r <~ f x ;; for_append f xs' (formatted ++ [r])
  end.

(** The dict that the loop of [get_all_connectors] appends for one
    connector; its values are evaluated in the order they are written. *)
Definition connector_summary (connector : pyval) : outcome pyval :=
  id <~ py_get connector "id" PNone ;;
  name <~ py_get connector "schema" PNone ;;
  service <~ py_get connector "service" PNone ;;
  flag <~ py_get connector "paused" PNone ;;
  let status := if negb (py_bool flag) then "Active" else "Paused" in
  status1 <~ py_get connector "status" (PDict []) ;;
  sync_state <~ py_get status1 "sync_state" PNone ;;
  status2 <~ py_get connector "status" (PDict []) ;;
  setup_state <~ py_get status2 "setup_state" PNone ;;
  last_sync <~ py_get connector "succeeded_at" PNone ;;
  failed_at <~ py_get connector "failed_at" PNone ;;
  paused <~ py_get connector "paused" (PBool false) ;;
  group_id <~ py_get connector "group_id" PNone ;;
  Returned (PDict [("id", id);
                   ("name", name);
                   ("service", service);
                   ("status", PStr status);
                   ("sync_state", sync_state);
                   ("setup_state", setup_state);
                   ("last_sync", last_sync);
                   ("failed_at", failed_at);
                   ("paused", paused);
                   ("group_id", group_id)]).

(** The dict [get_connector_details] returns for the connector the
    client handed back. *)
Definition connector_details (connector : pyval) : outcome pyval :=
  id <~ py_get connector "id" PNone ;;
  name <~ py_get connector "schema" PNone ;;
  service <~ py_get connector "service" PNone ;;
  paused <~ py_get connector "paused" PNone ;;
  sync_frequency <~ py_get connector "sync_frequency" PNone ;;
  daily_sync_time <~ py_get connector "daily_sync_time" PNone ;;
  schedule_type <~ py_get connector "schedule_type" PNone ;;
  status <~ py_get connector "status" PNone ;;
  status1 <~ py_get connector "status" (PDict []) ;;
  setup_state <~ py_get status1 "setup_state" PNone ;;
  status2 <~ py_get connector "status" (PDict []) ;;
  sync_state <~ py_get status2 "sync_state" PNone ;;
  status3 <~ py_get connector "status" (PDict []) ;;
  update_state <~ py_get status3 "update_state" PNone ;;
  succeeded_at <~ py_get connector "succeeded_at" PNone ;;
  failed_at <~ py_get connector "failed_at" PNone ;;
  config <~ py_get connector "config" PNone ;;
  group_id <~ py_get connector "group_id" PNone ;;
  Returned (PDict [("id", id);
                   ("name", name);
                   ("service", service);
                   ("paused", paused);
                   ("sync_frequency", sync_frequency);
                   ("daily_sync_time", daily_sync_time);
                   ("schedule_type", schedule_type);
                   ("status", status);
                   ("setup_state", setup_state);
                   ("sync_state", sync_state);
                   ("update_state", update_state);
                   ("succeeded_at", succeeded_at);
                   ("failed_at", failed_at);
                   ("config", config);
                   ("group_id", group_id)]).

(** The dict that the loop of [get_all_groups] appends for one group. *)
Definition group_summary (group : pyval) : outcome pyval :=
  id <~ py_get group "id" PNone ;;
  name <~ py_get group "name" PNone ;;
  created_at <~ py_get group "created_at" PNone ;;
  Returned (PDict [("id", id);
                   ("name", name);
                   ("created_at", created_at)]).

(** [{"success": False, "message": str(e)}] *)
Definition failure (e : pyexc) : pyval :=
  PDict [("success", PBool false); ("message", PStr (exc_str e))].

Section Remote.

Variable remote : http_request -> http_outcome.

Definition get_all_connectors (self : FivetranAPI)
    (group_id : option string) : py pyval :=
  try_except
    (connectors <- Client.list_connectors remote (client self) group_id ;;
     items <- lift (py_iter connectors) ;;
     formatted <- lift (for_append connector_summary items []) ;;
     ret (PList formatted))
    is_Exception
    (fun e =>
       log_error ApiLogger ("Failed to get connectors: " ++ exc_str e) ;;;
       raise e).

Definition get_connector_details (self : FivetranAPI)
    (connector_id : string) : py pyval :=
  try_except
    (connector <- Client.get_connector remote (client self)
                    connector_id ;;
     lift (connector_details connector))
    is_Exception
    (fun e =>
       log_error ApiLogger
         ("Failed to get connector details: " ++ exc_str e) ;;;
       raise e).

Definition activate_connector (self : FivetranAPI)
    (connector_id : string) : py pyval :=
  try_except
    (result <- Client.activate_connector remote (client self)
                 connector_id ;;
     ret (PDict [("success", PBool true);
                 ("message", PStr "Connector activated");
                 ("data", result)]))
    is_Exception
    (fun e =>
       log_error ApiLogger
         ("Failed to activate connector: " ++ exc_str e) ;;;
       ret (failure e)).

Definition pause_connector (self : FivetranAPI)
    (connector_id : string) : py pyval :=
  try_except
    (result <- Client.pause_connector remote (client self)
                 connector_id ;;
     ret (PDict [("success", PBool true);
                 ("message", PStr "Connector paused");
                 ("data", result)]))
    is_Exception
    (fun e =>
       log_error ApiLogger ("Failed to pause connector: " ++ exc_str e) ;;;
       ret (failure e)).

Definition sync_connector (self : FivetranAPI)
    (connector_id : string) (force : bool) : py pyval :=
  try_except
    (result <- Client.sync_connector remote (client self)
                 connector_id force ;;
     let sync_type := if force then "force sync" else "sync" in
     ret (PDict [("success", PBool true);
                 ("message",
                  PStr ("Connector " ++ sync_type ++ " triggered"));
                 ("data", result)]))
    is_Exception
    (fun e =>
       log_error ApiLogger ("Failed to sync connector: " ++ exc_str e) ;;;
       ret (failure e)).

Definition get_connector_schemas (self : FivetranAPI)
    (connector_id : string) : py pyval :=
  try_except
    (schemas <- Client.get_connector_schemas remote (client self)
                  connector_id ;;
     ret (PDict [("success", PBool true); ("data", schemas)]))
    is_Exception
    (fun e =>
       log_error ApiLogger ("Failed to get schemas: " ++ exc_str e) ;;;
       ret (failure e)).

Definition resync_table (self : FivetranAPI)
    (connector_id schema table : string) : py pyval :=
  try_except
    (result <- Client.resync_table remote (client self)
                 connector_id schema table ;;
     ret (PDict [("success", PBool true);
                 ("message",
                  PStr ("Table " ++ schema ++ "." ++ table
                        ++ " resync triggered"));
                 ("data", result)]))
    is_Exception
    (fun e =>
       log_error ApiLogger ("Failed to resync table: " ++ exc_str e) ;;;
       ret (failure e)).

Definition toggle_table (self : FivetranAPI)
    (connector_id schema table : string) (enabled : bool) : py pyval :=
  try_except
    (result <- Client.update_connector_schema remote (client self)
                 connector_id schema table enabled ;;
     let status := if enabled then "enabled" else "disabled" in
     ret (PDict [("success", PBool true);
                 ("message",
                  PStr ("Table " ++ schema ++ "." ++ table ++ " "
                        ++ status));
                 ("data", result)]))
    is_Exception
    (fun e =>
       log_error ApiLogger ("Failed to toggle table: " ++ exc_str e) ;;;
       ret (failure e)).

Definition get_all_groups (self : FivetranAPI) : py pyval :=
  try_except
    (groups <- Client.list_groups remote (client self) ;;
     items <- lift (py_iter groups) ;;
     formatted <- lift (for_append group_summary items []) ;;
     ret (PList formatted))
    is_Exception
    (fun e =>
       log_error ApiLogger ("Failed to get groups: " ++ exc_str e) ;;;
       raise e).

Definition test_connection (self : FivetranAPI)
    (connector_id : string) : py pyval :=
  try_except
    (result <- Client.test_connection remote (client self)
                 connector_id ;;
     ret (PDict [("success", PBool true);
                 ("message", PStr "Connection test completed");
                 ("data", result)]))
    is_Exception
    (fun e =>
       log_error ApiLogger ("Failed to test connection: " ++ exc_str e) ;;;
       ret (failure e)).

End Remote.

End API.

(** ** The operations of the domain service, by kind *)

(** The operations that wrap their outcome in a result dict. *)
Inductive wrapped_op : Type :=
| Activate (connector_id : string)
| Pause (connector_id : string)
| Sync (connector_id : string) (force : bool)
| GetSchemas (connector_id : string)
| ResyncTable (connector_id schema table : string)
| ToggleTable (connector_id schema table : string) (enabled : bool)
| TestConnection (connector_id : string).

(** The operations that let a failure through. *)
Inductive read_op : Type :=
| ListGroups
| ListConnectors (group_id : option string)
| GetConnectorDetail (connector_id : string).

Section Dispatch.

Variable remote : http_request -> http_outcome.

(** The client call an operation of the service makes. *)
Definition client_call (c : FivetranClient) (op : wrapped_op) : py pyval :=
  match op with
  | Activate i => Client.activate_connector remote c i
  | Pause i => Client.pause_connector remote c i
  | Sync i force => Client.sync_connector remote c i force
  | GetSchemas i => Client.get_connector_schemas remote c i
  | ResyncTable i s t => Client.resync_table remote c i s t
  | ToggleTable i s t en => Client.update_connector_schema remote c i s t en
  | TestConnection i => Client.test_connection remote c i
  end.

(** The method of the service for an operation. *)
Definition api_call (a : FivetranAPI) (op : wrapped_op) : py pyval :=
  match op with
  | Activate i => API.activate_connector remote a i
  | Pause i => API.pause_connector remote a i
  | Sync i force => API.sync_connector remote a i force
  | GetSchemas i => API.get_connector_schemas remote a i
  | ResyncTable i s t => API.resync_table remote a i s t
  | ToggleTable i s t en => API.toggle_table remote a i s t en
  | TestConnection i => API.test_connection remote a i
  end.

Definition client_read (c : FivetranClient) (op : read_op) : py pyval :=
  match op with
  | ListGroups => Client.list_groups remote c
  | ListConnectors g => Client.list_connectors remote c g
  | GetConnectorDetail i => Client.get_connector remote c i
  end.

Definition api_read (a : FivetranAPI) (op : read_op) : py pyval :=
  match op with
  | ListGroups => API.get_all_groups remote a
  | ListConnectors g => API.get_all_connectors remote a g
  | GetConnectorDetail i => API.get_connector_details remote a i
  end.

End Dispatch.

(** The two operations that list. *)
Definition is_list_op (op : read_op) : bool :=
  match op with
  | ListGroups | ListConnectors _ => true
  | GetConnectorDetail _ => false
  end.

(** The endpoint a read operation asks for. *)
Definition read_endpoint (op : read_op) : string :=
  match op with
  | ListGroups => "groups"
  | ListConnectors g => Client.list_connectors_endpoint g
  | GetConnectorDetail i => "connectors/" ++ i
  end.

(** ** Shapes the design document names *)

(** The request [_make_request] hands to [requests.request]. *)
Definition request_for (c : FivetranClient) (method endpoint : string)
    (data : option pyval) : http_request :=
  {| rq_method := method;
     rq_url := Client.BASE_URL ++ "/" ++ endpoint;
     rq_auth := auth c;
     rq_headers := [("Content-Type", "application/json")];
     rq_json := data;
     rq_timeout := 30 |}.

Definition is_bool (v : pyval) : bool :=
  match v with PBool _ => true | _ => false end.
Definition is_str (v : pyval) : bool :=
  match v with PStr _ => true | _ => false end.

Definition key_in (keys : list string) (k : string) : bool :=
  existsb (String.eqb k) keys.

(** An Operation Result: a dict with a boolean [success], a string
    [message], perhaps [data], and no other key. *)
Definition is_operation_result (v : pyval) : bool :=
  match v with
  | PDict items =>
      match dict_get items "success", dict_get items "message" with
      | Some s, Some m =>
          is_bool s && is_str m
          && forallb (fun kv => key_in ["success"; "message"; "data"] (fst kv))
               items
      | _, _ => false
      end
  | _ => false
  end.

(** A list envelope without items: a dict with no [data], or whose
    [data] is a dict with no [items]. *)
Definition lacks_items (envelope : pyval) : bool :=
  match envelope with
  | PDict env =>
      match dict_get env "data" with
      | None => true
      | Some (PDict data) =>
          match dict_get data "items" with
          | None => true
          | Some _ => false
          end
      | Some _ => false
      end
  | _ => false
  end.

(** A 2xx status. *)
Definition is_2xx (status : Z) : bool :=
  (200 <=? status) && (status <? 300).

(** ** Sample worlds and services *)

Definition w0 : world := {| sent := []; logged := [] |}.

Definition api0 : FivetranAPI := FivetranAPI_init "key" "secret".

(** A service that answers every request with one response. *)
Definition answers (status : Z) (why : string) (body : string + pyval)
  : http_request -> http_outcome :=
  fun rq => Responded {| status_code := status; reason := why;
                         resp_url := rq_url rq; resp_json := body |}.

(** A service that cannot be reached. *)
Definition unreachable : http_request -> http_outcome :=
  fun _ => NetFail (mkExc ConnectionError "Connection refused").

(** What one round trip comes to, read off the service's answer: the
    exception of [requests.request], else that of [raise_for_status],
    else what [response.json()] gives. *)
Definition round_trip (remote : http_request -> http_outcome)
    (rq : http_request) : outcome pyval :=
  match remote rq with
  | NetFail e => Raised e
  | Responded r =>
      _ <~ requests.raise_for_status r ;; requests.json r
  end.

(** The line [_make_request] logs for an outcome. *)
Definition round_trip_log (o : outcome pyval) : list log_record :=
  match o with
  | Returned _ => []
  | Raised e =>
      if is_RequestException (exc_type e)
      then [mkLog ClientLogger ERROR ("API request failed: " ++ exc_str e)]
      else []
  end.

(** ** Statements of the design document that the code does not meet *)

(** "On any non-2xx HTTP status the call raises." *)
Definition raises_on_every_non_2xx : Prop :=
  forall (remote : http_request -> http_outcome) (self : FivetranClient)
         (method endpoint : string) (data : option pyval) (w : world)
         (r : response),
    remote (request_for self method endpoint data) = Responded r ->
    is_2xx (status_code r) = false ->
    exists e,
      fst (Client._make_request remote self method endpoint data w)
      = Raised e.

(** "Every wrapped operation returns exactly the Operation Result
    shape." *)
Definition every_wrapped_result_has_a_message : Prop :=
  forall (remote : http_request -> http_outcome) (self : FivetranAPI)
         (op : wrapped_op) (w : world),
    exists v w',
      api_call remote self op w = (Returned v, w')
      /\ is_operation_result v = true.

(** "Detail and summary projections emit the same derived status." *)
Definition projections_emit_the_same_status : Prop :=
  forall connector summary details : pyval,
    API.connector_summary connector = Returned summary ->
    API.connector_details connector = Returned details ->
    py_item details "status" = py_item summary "status".

(** "In every record listConnectors emits, status is Active if and only
    if the emitted paused boolean is false, for any remote payload." *)
Definition status_is_active_iff_paused_is_False : Prop :=
  forall (remote : http_request -> http_outcome) (self : FivetranAPI)
         (group_id : option string) (w w' : world) (records : list pyval)
         (r : pyval),
    API.get_all_connectors remote self group_id w
    = (Returned (PList records), w') ->
    In r records ->
    exists status paused,
      py_item r "status" = Some (PStr status)
      /\ py_item r "paused" = Some paused
      /\ (status = "Active" <-> paused = PBool false).

(** "toggleTable(connId, schema, table, true) sends the PATCH and, on a
    2xx response, returns success true with a message that contains
    enabled." *)
Definition toggle_succeeds_on_every_2xx : Prop :=
  forall (remote : http_request -> http_outcome) (self : FivetranAPI)
         (connector_id schema table : string) (w : world) (r : response),
    let rq := request_for (client self) "PATCH"
                ("connectors/" ++ connector_id ++ "/schemas/" ++ schema
                 ++ "/tables/" ++ table)
                (Some (PDict [("enabled", PBool true)])) in
    sent (snd (API.toggle_table remote self connector_id schema table
                 true w))
    = (sent w ++ [rq])%list
    /\ (remote rq = Responded r ->
        is_2xx (status_code r) = true ->
        exists message data,
          fst (API.toggle_table remote self connector_id schema table
                 true w)
          = Returned (PDict [("success", PBool true);
                             ("message", PStr message);
                             ("data", data)])
          /\ contains message "enabled" = true).

(** ** The methods of the client, by name *)

(** One constructor for each method of [FivetranClient] that calls the
    service. *)
Inductive client_op : Type :=
| CListConnectors (group_id : option string)
| CGetConnector (connector_id : string)
| CActivate (connector_id : string)
| CPause (connector_id : string)
| CSync (connector_id : string) (force : bool)
| CResyncTable (connector_id schema table : string)
| CGetSchemas (connector_id : string)
| CUpdateSchema (connector_id schema table : string) (enabled : bool)
| CListGroups
| CGetGroup (group_id : string)
| CTestConnection (connector_id : string).

Definition client_run (remote : http_request -> http_outcome)
    (c : FivetranClient) (op : client_op) : py pyval :=
  match op with
  | CListConnectors g => Client.list_connectors remote c g
  | CGetConnector i => Client.get_connector remote c i
  | CActivate i => Client.activate_connector remote c i
  | CPause i => Client.pause_connector remote c i
  | CSync i force => Client.sync_connector remote c i force
  | CResyncTable i s t => Client.resync_table remote c i s t
  | CGetSchemas i => Client.get_connector_schemas remote c i
  | CUpdateSchema i s t en => Client.update_connector_schema remote c i s t en
  | CListGroups => Client.list_groups remote c
  | CGetGroup g => Client.get_group remote c g
  | CTestConnection i => Client.test_connection remote c i
  end.

(** The remote call of each method, as the table of the external
    interface lists it: HTTP method, path under the base URL, body. *)
Definition op_method (op : client_op) : string :=
  match op with
  | CListConnectors _ | CGetConnector _ | CGetSchemas _
  | CListGroups | CGetGroup _ => "GET"
  | CActivate _ | CPause _ | CUpdateSchema _ _ _ _ => "PATCH"
  | CSync _ _ | CResyncTable _ _ _ | CTestConnection _ => "POST"
  end.

Definition op_endpoint (op : client_op) : string :=
  match op with
  | CListConnectors g => Client.list_connectors_endpoint g
  | CGetConnector i => "connectors/" ++ i
  | CActivate i => "connectors/" ++ i
  | CPause i => "connectors/" ++ i
  | CSync i force =>
      "connectors/" ++ i ++ "/" ++ (if force then "force" else "sync")
  | CResyncTable i s t =>
      "connectors/" ++ i ++ "/schemas/" ++ s ++ "/tables/" ++ t ++ "/resync"
  | CGetSchemas i => "connectors/" ++ i ++ "/schemas"
  | CUpdateSchema i s t _ =>
      "connectors/" ++ i ++ "/schemas/" ++ s ++ "/tables/" ++ t
  | CListGroups => "groups"
  | CGetGroup g => "groups/" ++ g
  | CTestConnection i => "connectors/" ++ i ++ "/test"
  end.

Definition op_body (op : client_op) : option pyval :=
  match op with
  | CActivate _ => Some (PDict [("paused", PBool false)])
  | CPause _ => Some (PDict [("paused", PBool true)])
  | CUpdateSchema _ _ _ en => Some (PDict [("enabled", PBool en)])
  | _ => None
  end.

Definition op_request (c : FivetranClient) (op : client_op) : http_request :=
  request_for c (op_method op) (op_endpoint op) (op_body op).

(** The two methods that unwrap [data] and then [items]. *)
Definition is_list_method (op : client_op) : bool :=
  match op with
  | CListConnectors _ | CListGroups => true
  | _ => false
  end.

(** The client method beneath each operation of the service. *)
Definition wrapped_method (op : wrapped_op) : client_op :=
  match op with
  | Activate i => CActivate i
  | Pause i => CPause i
  | Sync i force => CSync i force
  | GetSchemas i => CGetSchemas i
  | ResyncTable i s t => CResyncTable i s t
  | ToggleTable i s t en => CUpdateSchema i s t en
  | TestConnection i => CTestConnection i
  end.

Definition read_method (op : read_op) : client_op :=
  match op with
  | ListGroups => CListGroups
  | ListConnectors g => CListConnectors g
  | GetConnectorDetail i => CGetConnector i
  end.

(** The text each method of the service puts before [str(e)] in its
    error line. *)
Definition wrapped_error_prefix (op : wrapped_op) : string :=
  match op with
  | Activate _ => "Failed to activate connector: "
  | Pause _ => "Failed to pause connector: "
  | Sync _ _ => "Failed to sync connector: "
  | GetSchemas _ => "Failed to get schemas: "
  | ResyncTable _ _ _ => "Failed to resync table: "
  | ToggleTable _ _ _ _ => "Failed to toggle table: "
  | TestConnection _ => "Failed to test connection: "
  end.

Definition read_error_prefix (op : read_op) : string :=
  match op with
  | ListGroups => "Failed to get groups: "
  | ListConnectors _ => "Failed to get connectors: "
  | GetConnectorDetail _ => "Failed to get connector details: "
  end.

(** The projection a read operation applies: to each item for the two
    lists, to the connector for the detail. *)
Definition read_projection (op : read_op) : pyval -> outcome pyval :=
  match op with
  | ListGroups => API.group_summary
  | ListConnectors _ => API.connector_summary
  | GetConnectorDetail _ => API.connector_details
  end.

Definition is_dict (v : pyval) : bool :=
  match v with PDict _ => true | _ => false end.

(** A connector payload both projections can read: a dict whose
    [status], when present, is a dict. *)
Definition readable_connector (v : pyval) : bool :=
  match v with
  | PDict d =>
      match dict_get d "status" with
      | None => true
      | Some st => is_dict st
      end
  | _ => false
  end.

(** The value [.get("data", {})] gives on a dict envelope. *)
Definition data_of (envelope : list (string * pyval)) : pyval :=
  match dict_get envelope "data" with
  | Some x => x
  | None => PDict []
  end.

(** What a read operation can project: any dict for a group, a
    readable connector for the two connector projections. *)
Definition readable (op : read_op) (v : pyval) : bool :=
  match op with
  | ListGroups => is_dict v
  | ListConnectors _ | GetConnectorDetail _ => readable_connector v
  end.

(** All ten methods of the service: the wrapped ones and the reads. *)
Definition api_op : Type := (wrapped_op + read_op)%type.

Definition api_run (remote : http_request -> http_outcome)
    (a : FivetranAPI) (op : api_op) : py pyval :=
  match op with
  | inl o => api_call remote a o
  | inr o => api_read remote a o
  end.

Definition api_method (op : api_op) : client_op :=
  match op with
  | inl o => wrapped_method o
  | inr o => read_method o
  end.

Definition api_error_prefix (op : api_op) : string :=
  match op with
  | inl o => wrapped_error_prefix o
  | inr o => read_error_prefix o
  end.

(** The fifteen keys of a detail record, in the order they are written. *)
Definition detail_keys : list string :=
  ["id"; "name"; "service"; "paused"; "sync_frequency"; "daily_sync_time";
   "schedule_type"; "status"; "setup_state"; "sync_state"; "update_state";
   "succeeded_at"; "failed_at"; "config"; "group_id"].

(** The keys of a summary record and of a group record. *)
Definition summary_keys : list string :=
  ["id"; "name"; "service"; "status"; "sync_state"; "setup_state";
   "last_sync"; "failed_at"; "paused"; "group_id"].

Definition group_keys : list string := ["id"; "name"; "created_at"].

Definition record_keys (op : read_op) : list string :=
  match op with
  | ListGroups => group_keys
  | ListConnectors _ => summary_keys
  | GetConnectorDetail _ => detail_keys
  end.

(** ** app.py: the summary metrics of the connectors page *)

(** [v == s] for a string literal [s]. *)
Definition py_eq_str (v : pyval) (s : string) : bool :=
  match v with
  | PStr t => String.eqb t s
  | _ => false
  end.

(** [sum(1 for c in connectors if c['status'] == s)]; [None] when a
    subscript [c['status']] raises. *)
Fixpoint count_status (s : string) (connectors : list pyval) : option nat :=
  match connectors with
  | [] => Some 0%nat
  | c :: rest =>
      match py_item c "status" with
      | None => None
      | Some v =>
          match count_status s rest with
          | None => None
          | Some n => Some (if py_eq_str v s then S n else n)
          end
      end
  end.

Definition active_count (connectors : list pyval) : option nat :=
  count_status "Active" connectors.

Definition paused_count (connectors : list pyval) : option nat :=
  count_status "Paused" connectors.

(** ** The model on the design document's examples *)

Example list_groups_example :
  fst (API.get_all_groups
         (answers 200 "OK"
            (inr (PDict [("data",
                    PDict [("items",
                      PList [PDict [("id", PStr "g1");
                                    ("name", PStr "G1")]])])])))
         api0 w0)
  = Returned (PList [PDict [("id", PStr "g1"); ("name", PStr "G1");
                            ("created_at", PNone)]]).
Proof. reflexivity. Qed.

Example paused_connector_example :
  API.connector_summary (PDict [("id", PStr "c1"); ("paused", PBool true)])
  = Returned (PDict [("id", PStr "c1"); ("name", PNone); ("service", PNone);
                     ("status", PStr "Paused"); ("sync_state", PNone);
                     ("setup_state", PNone); ("last_sync", PNone);
                     ("failed_at", PNone); ("paused", PBool true);
                     ("group_id", PNone)]).
Proof. reflexivity. Qed.

Example null_data_example :
  fst (API.get_all_groups
         (answers 200 "OK" (inr (PDict [("data", PNone)]))) api0 w0)
  = Raised (mkExc AttributeError
              "'NoneType' object has no attribute 'get'").
Proof. reflexivity. Qed.

Example timeout_is_wrapped_example :
  fst (API.test_connection
         (fun _ => NetFail (mkExc Timeout "Read timed out. (read timeout=30)"))
         api0 "c1" w0)
  = Returned (PDict [("success", PBool false);
                     ("message",
                      PStr "Read timed out. (read timeout=30)")]).
Proof. reflexivity. Qed.

(** ** Control flow lemmas *)

Lemma bind_returned {A B} (c : py A) (k : A -> py B) w a w' :
  c w = (Returned a, w') -> bind c k w = k a w'.
Proof. intros H. unfold bind. now rewrite H. Qed.

Lemma bind_raised {A B} (c : py A) (k : A -> py B) w e w' :
  c w = (Raised e, w') -> bind c k w = (Raised e, w').
Proof. intros H. unfold bind. now rewrite H. Qed.

Lemma try_except_returned {A} (body : py A) catches handler w a w' :
  body w = (Returned a, w') ->
  try_except body catches handler w = (Returned a, w').
Proof. intros H. unfold try_except. now rewrite H. Qed.

Lemma try_except_caught {A} (body : py A) catches handler w e w' :
  body w = (Raised e, w') ->
  catches (exc_type e) = true ->
  try_except body catches handler w = handler e w'.
Proof. intros H C. unfold try_except. now rewrite H, C. Qed.

(** A handler that logs and raises again lets the exception through. *)
Lemma log_and_raise {A} src text e w :
  (log_error src text ;;; @raise A e) w
  = (Raised e, {| sent := sent w;
                  logged := logged w ++ [mkLog src ERROR text] |}).
Proof. reflexivity. Qed.

(** A handler that logs and returns makes the statement return. *)
Lemma log_and_return {A} src text (a : A) w :
  (log_error src text ;;; ret a) w
  = (Returned a, {| sent := sent w;
                    logged := logged w ++ [mkLog src ERROR text] |}).
Proof. reflexivity. Qed.

#[local] Ltac run_handler H :=
  first
    [ erewrite try_except_caught;
      [ | erewrite bind_raised; [ reflexivity | exact H ] | reflexivity ]
    | erewrite try_except_caught; [ | exact H | reflexivity ] ].

(** ** Failure behaviour of the domain service *)

(** C1.  For each wrapped operation (activate, pause, sync, getSchemas,
    resyncTable, toggleTable, testConnection): when the client call
    beneath it raises an error [e], the operation does not raise; it
    returns the dict [{"success": False, "message": str(e)}], having sent
    nothing more than the client call did. *)
Theorem wrapped_op_failure_is_result
    (remote : http_request -> http_outcome) (self : FivetranAPI)
    (op : wrapped_op) (w w1 : world) (e : pyexc) :
  client_call remote (client self) op w = (Raised e, w1) ->
  exists w2,
    api_call remote self op w
    = (Returned (PDict [("success", PBool false);
                        ("message", PStr (exc_str e))]), w2)
    /\ sent w2 = sent w1.
Proof.
  intros H. destruct op; simpl in H; simpl;
    [ unfold API.activate_connector
    | unfold API.pause_connector
    | unfold API.sync_connector
    | unfold API.get_connector_schemas
    | unfold API.resync_table
    | unfold API.toggle_table
    | unfold API.test_connection ];
    run_handler H; rewrite log_and_return; eexists; split; reflexivity.
Qed.

(** The witness: pausing a connector while the service is unreachable. *)
Lemma wrapped_op_failure_is_result_witness :
  exists w2,
    api_call unreachable api0 (Pause "c1") w0
    = (Returned (PDict [("success", PBool false);
                        ("message", PStr "Connection refused")]), w2)
    /\ sent w2 = [request_for (client api0) "PATCH" "connectors/c1"
                    (Some (PDict [("paused", PBool true)]))].
Proof.
  exact (wrapped_op_failure_is_result unreachable api0 (Pause "c1") w0 _
           (mkExc ConnectionError "Connection refused") eq_refl).
Defined.

(** C2.  For each read operation (listGroups, listConnectors,
    getConnectorDetail): when the client call beneath it raises an error
    [e], the operation raises that same [e]; no result is returned. *)
Theorem read_op_failure_propagates
    (remote : http_request -> http_outcome) (self : FivetranAPI)
    (op : read_op) (w w1 : world) (e : pyexc) :
  client_read remote (client self) op w = (Raised e, w1) ->
  exists w2,
    api_read remote self op w = (Raised e, w2) /\ sent w2 = sent w1.
Proof.
  intros H. destruct op; simpl in H; simpl;
    [ unfold API.get_all_groups
    | unfold API.get_all_connectors
    | unfold API.get_connector_details ];
    run_handler H; rewrite log_and_raise; eexists; split; reflexivity.
Qed.

(** The witness: listing the connectors of a group the service answers
    with 404. *)
Lemma read_op_failure_propagates_witness :
  exists w2,
    api_read (answers 404 "Not Found" (inr (PDict []))) api0
      (ListConnectors (Some "g")) w0
    = (Raised (mkExc HTTPError
         "404 Client Error: Not Found for url: https://api.fivetran.com/v1/groups/g/connectors"),
       w2)
    /\ sent w2 = [request_for (client api0) "GET" "groups/g/connectors" None].
Proof.
  exact (read_op_failure_propagates (answers 404 "Not Found" (inr (PDict [])))
           api0 (ListConnectors (Some "g")) w0 _ _ eq_refl).
Defined.

(** ** The summary projection *)

(** What the loop returns holds what it started with and what the body
    made of the elements, nothing else. *)
Lemma for_append_In f xs : forall formatted out r,
  API.for_append f xs formatted = Returned out ->
  In r out ->
  In r formatted \/ exists x, In x xs /\ f x = Returned r.
Proof.
  induction xs as [|x xs IH]; intros formatted out r H Hin; simpl in H.
  - injection H as <-. now left.
  - destruct (f x) as [y|e] eqn:Hx; simpl in H; [|discriminate].
    destruct (IH _ _ _ H Hin) as [Hacc | (x' & Hx' & Hf)].
    + apply in_app_or in Hacc. destruct Hacc as [Hacc | [<- | []]].
      * now left.
      * right. exists x. split; [now left | assumption].
    + right. exists x'. split; [now right | assumption].
Qed.

(** The summary of one connector: the derived [status] against the
    emitted [paused]. *)
Lemma connector_summary_status connector r :
  API.connector_summary connector = Returned r ->
  exists paused,
    py_item r "paused" = Some paused
    /\ py_item r "status"
       = Some (PStr (if py_bool paused then "Paused" else "Active")).
Proof.
  unfold API.connector_summary.
  destruct connector as [| | | | |l|d]; simpl; try discriminate.
  destruct (dict_get d "status") as [[| | | | |l'|d']|]; simpl;
    try discriminate;
    intros H; injection H as <-; simpl;
    (destruct (dict_get d "paused") as [p|]; simpl;
     [ exists p; split; [reflexivity | now destruct (py_bool p)]
     | exists (PBool false); split; reflexivity ]).
Qed.

(** A list operation that returns went through its loop. *)
Lemma get_all_connectors_returned remote self group_id w records w' :
  API.get_all_connectors remote self group_id w
  = (Returned (PList records), w') ->
  exists items,
    API.for_append API.connector_summary items [] = Returned records.
Proof.
  unfold API.get_all_connectors, try_except, bind, lift, ret.
  destruct (Client.list_connectors remote (client self) group_id w)
    as [[connectors|e] w1]; simpl.
  - destruct (py_iter connectors) as [items|e]; simpl.
    + destruct (API.for_append API.connector_summary items []) as [out|e]
        eqn:Hloop; simpl.
      * intros H. injection H as <- _. now exists items.
      * discriminate.
    + discriminate.
  - discriminate.
Qed.

(** The statement of the design document fails: for a payload with
    [paused] [null], the record has [status] ["Active"] and [paused]
    [None], which is not the boolean [False]. *)
Lemma null_paused_is_active : ~ status_is_active_iff_paused_is_False.
Proof.
  intros H.
  destruct (H (answers 200 "OK"
                 (inr (PDict [("data",
                         PDict [("items",
                           PList [PDict [("id", PStr "c1");
                                         ("paused", PNone)]])])])))
              api0 None w0 _ _ _ eq_refl (or_introl eq_refl))
    as (status & paused & Hs & Hp & Hiff).
  injection Hs as <-. injection Hp as <-.
  destruct Hiff as [Hiff _]. discriminate (Hiff eq_refl).
Qed.

(** C3, amended.  In every record that listConnectors emits, whatever
    the remote payload, [status] is ["Active"] exactly when the emitted
    [paused] is false as Python tests it ([False], and also [None], zero
    and the empty values), and ["Paused"] otherwise; when the emitted
    [paused] is a boolean, [status] is ["Active"] exactly when it is
    [False]. *)
Theorem summary_status_agrees_with_paused
    (remote : http_request -> http_outcome) (self : FivetranAPI)
    (group_id : option string) (w w' : world) (records : list pyval)
    (r : pyval) :
  API.get_all_connectors remote self group_id w
  = (Returned (PList records), w') ->
  In r records ->
  exists status paused,
    py_item r "status" = Some (PStr status)
    /\ py_item r "paused" = Some paused
    /\ (status = "Active" <-> py_bool paused = false)
    /\ (status = "Paused" <-> py_bool paused = true)
    /\ (forall b, paused = PBool b -> (status = "Active" <-> b = false)).
Proof.
  intros H Hin.
  destruct (get_all_connectors_returned _ _ _ _ _ _ H) as [items Hloop].
  destruct (for_append_In _ _ _ _ _ Hloop Hin) as [[] | (c & _ & Hc)].
  destruct (connector_summary_status _ _ Hc) as (paused & Hp & Hs).
  exists (if py_bool paused then "Paused" else "Active"), paused.
  split; [assumption|]. split; [assumption|].
  destruct (py_bool paused) eqn:Hb.
  - split; [split; discriminate|]. split; [split; reflexivity|].
    intros b ->. simpl in Hb. subst b. split; discriminate.
  - split; [split; reflexivity|]. split; [split; discriminate|].
    intros b ->. simpl in Hb. subst b. split; reflexivity.
Qed.

(** The witness: a paused connector and one whose flag is missing. *)
Lemma summary_status_agrees_with_paused_witness :
  exists status paused,
    py_item (PDict [("id", PStr "c1"); ("name", PNone); ("service", PNone);
                    ("status", PStr "Paused"); ("sync_state", PNone);
                    ("setup_state", PNone); ("last_sync", PNone);
                    ("failed_at", PNone); ("paused", PBool true);
                    ("group_id", PNone)]) "status" = Some (PStr status)
    /\ py_item (PDict [("id", PStr "c1"); ("name", PNone); ("service", PNone);
                       ("status", PStr "Paused"); ("sync_state", PNone);
                       ("setup_state", PNone); ("last_sync", PNone);
                       ("failed_at", PNone); ("paused", PBool true);
                       ("group_id", PNone)]) "paused" = Some paused
    /\ (status = "Active" <-> py_bool paused = false)
    /\ (status = "Paused" <-> py_bool paused = true)
    /\ (forall b, paused = PBool b -> (status = "Active" <-> b = false)).
Proof.
  eapply (summary_status_agrees_with_paused
           (answers 200 "OK"
              (inr (PDict [("data",
                     PDict [("items",
                       PList [PDict [("id", PStr "c1");
                                     ("paused", PBool true)];
                              PDict [("id", PStr "c2")]])])])))
           api0 None w0).
  - reflexivity.
  - left. reflexivity.
Defined.

(** ** The transport client *)

Lemma prefix_refl t : String.prefix t t = true.
Proof.
  induction t as [|a t IH]; simpl; [reflexivity|].
  destruct (ascii_dec a a); [assumption | contradiction].
Qed.

Lemma contains_unfold hay needle :
  contains hay needle
  = if String.prefix needle hay then true
    else match hay with
         | EmptyString => false
         | String _ hay' => contains hay' needle
         end.
Proof. destruct hay; reflexivity. Qed.

Lemma contains_self s : contains s s = true.
Proof. rewrite contains_unfold. now rewrite prefix_refl. Qed.

Lemma contains_app_r a b n : contains b n = true -> contains (a ++ b) n = true.
Proof.
  intros H. induction a as [|c a IH]; [assumption|].
  change (String c a ++ b) with (String c (a ++ b)).
  rewrite contains_unfold, IH.
  now destruct (String.prefix n (String c (a ++ b))).
Qed.

(** One call of [_make_request] sends exactly one request, the one built
    from its arguments with timeout 30, and comes to what the round trip
    comes to. *)
Lemma make_request_run remote self method endpoint data w :
  Client._make_request remote self method endpoint data w
  = (round_trip remote (request_for self method endpoint data),
     {| sent := sent w ++ [request_for self method endpoint data];
        logged := logged w
                  ++ round_trip_log
                       (round_trip remote
                          (request_for self method endpoint data)) |}).
Proof.
  unfold Client._make_request, try_except, bind, lift,
    Client.requests_request, round_trip, request_for.
  destruct (remote _) as [e|r]; simpl.
  - destruct (is_RequestException (exc_type e)); simpl;
      [reflexivity | now rewrite app_nil_r].
  - destruct (requests.raise_for_status r) as [[]|e] eqn:Hs; simpl.
    + unfold requests.json. destruct (resp_json r) as [msg|v]; simpl;
        [reflexivity | now rewrite app_nil_r].
    + unfold requests.raise_for_status in Hs.
      destruct (_ && _) in Hs; [injection Hs as <-; reflexivity|].
      destruct (_ && _) in Hs; [injection Hs as <-; reflexivity|].
      discriminate.
Qed.

Lemma raise_for_status_2xx r :
  is_2xx (status_code r) = true -> requests.raise_for_status r = Returned tt.
Proof.
  unfold is_2xx, requests.raise_for_status. intros H.
  apply andb_true_iff in H. destruct H as [H1 H2].
  apply Z.leb_le in H1. apply Z.ltb_lt in H2.
  destruct (400 <=? status_code r) eqn:E1;
    [apply Z.leb_le in E1; lia|].
  destruct (500 <=? status_code r) eqn:E2;
    [apply Z.leb_le in E2; lia|].
  reflexivity.
Qed.

(** A 2xx answer with a JSON body: the round trip returns the body. *)
Lemma round_trip_2xx remote rq r body :
  remote rq = Responded r ->
  is_2xx (status_code r) = true ->
  resp_json r = inr body ->
  round_trip remote rq = Returned body.
Proof.
  intros Hr Hs Hj. unfold round_trip. rewrite Hr.
  rewrite (raise_for_status_2xx _ Hs). simpl.
  unfold requests.json. now rewrite Hj.
Qed.

(** The statement of the design document fails: a response with
    status 300 and a JSON body passes [raise_for_status], and
    [_make_request] returns its body. *)
Lemma status_300_is_returned : ~ raises_on_every_non_2xx.
Proof.
  intros H.
  destruct (H (answers 300 "Multiple Choices" (inr (PDict [])))
              (client api0) "GET" "connectors" None w0 _ eq_refl eq_refl)
    as [e He].
  discriminate He.
Qed.

(** C9, amended.  Every call of [_make_request] sends one request, with
    timeout 30.  When [requests.request] raises (a network-level
    failure), the call raises that exception; when the response has a
    status from 400 to 599, it raises an [HTTPError]; in both cases no
    body is returned.  For any other status it returns the decoded JSON
    body as it is, or raises the decoder's error when the body is not
    JSON. *)
Theorem make_request_contract
    (remote : http_request -> http_outcome) (self : FivetranClient)
    (method endpoint : string) (data : option pyval) (w : world) :
  let rq := request_for self method endpoint data in
  let run := Client._make_request remote self method endpoint data w in
  rq_timeout rq = 30
  /\ sent (snd run) = (sent w ++ [rq])%list
  /\ match remote rq with
     | NetFail e => fst run = Raised e
     | Responded r =>
         if (400 <=? status_code r) && (status_code r <? 600)
         then exists msg, fst run = Raised (mkExc HTTPError msg)
         else match resp_json r with
              | inr body => fst run = Returned body
              | inl msg => fst run = Raised (mkExc JSONDecodeError msg)
              end
     end.
Proof.
  intros rq run. subst run. rewrite make_request_run. fold rq. simpl.
  split; [reflexivity|]. split; [reflexivity|].
  unfold round_trip. destruct (remote rq) as [e|r]; [reflexivity|].
  unfold requests.raise_for_status, requests.json.
  destruct (Z.leb_spec 400 (status_code r)),
           (Z.ltb_spec (status_code r) 500),
           (Z.leb_spec 500 (status_code r)),
           (Z.ltb_spec (status_code r) 600);
    simpl; try lia; try (eexists; reflexivity);
    destruct (resp_json r); reflexivity.
Qed.

(** ** Targets and messages of the operations *)

Lemma sync_connector_sent remote self connector_id force w :
  sent (snd (API.sync_connector remote self connector_id force w))
  = (sent w
     ++ [request_for (client self) "POST"
           ("connectors/" ++ connector_id ++ "/"
            ++ (if force then "force" else "sync")) None])%list.
Proof.
  unfold API.sync_connector, Client.sync_connector, try_except, bind.
  rewrite make_request_run.
  destruct (round_trip remote _) as [resp|e]; simpl;
    [destruct (py_get resp "data" (PDict []))|]; reflexivity.
Qed.

(** C4.  [sync(id, force)] sends one request, a POST to
    [connectors/{id}/sync] when [force] is false and to
    [connectors/{id}/force] when it is true.  When the client call
    succeeds, the result has [success] true and a message that contains
    ["sync"]; the message contains ["force sync"] exactly when [force]
    is true. *)
Theorem sync_target_and_message
    (remote : http_request -> http_outcome) (self : FivetranAPI)
    (connector_id : string) (force : bool) (w : world) :
  sent (snd (API.sync_connector remote self connector_id force w))
  = (sent w
     ++ [request_for (client self) "POST"
           ("connectors/" ++ connector_id
            ++ (if force then "/force" else "/sync")) None])%list
  /\ forall data w1,
       Client.sync_connector remote (client self) connector_id force w
       = (Returned data, w1) ->
       exists message,
         API.sync_connector remote self connector_id force w
         = (Returned (PDict [("success", PBool true);
                             ("message", PStr message);
                             ("data", data)]), w1)
         /\ contains message "sync" = true
         /\ contains message "force sync" = force.
Proof.
  split.
  - rewrite sync_connector_sent. now destruct force.
  - intros data w1 H. unfold API.sync_connector.
    erewrite try_except_returned;
      [ | erewrite bind_returned; [reflexivity | exact H] ].
    eexists. split; [reflexivity|].
    destruct force; split; reflexivity.
Qed.

(** The witness: both kinds of sync against a service that answers 200. *)
Lemma sync_target_and_message_witness :
  (sent (snd (API.sync_connector
                (answers 200 "OK" (inr (PDict [("data", PDict [])])))
                api0 "c1" false w0))
   = [request_for (client api0) "POST" "connectors/c1/sync" None]
   /\ fst (API.sync_connector
             (answers 200 "OK" (inr (PDict [("data", PDict [])])))
             api0 "c1" false w0)
      = Returned (PDict [("success", PBool true);
                         ("message", PStr "Connector sync triggered");
                         ("data", PDict [])]))
  /\ (sent (snd (API.sync_connector
                   (answers 200 "OK" (inr (PDict [("data", PDict [])])))
                   api0 "c1" true w0))
      = [request_for (client api0) "POST" "connectors/c1/force" None]
      /\ fst (API.sync_connector
                (answers 200 "OK" (inr (PDict [("data", PDict [])])))
                api0 "c1" true w0)
         = Returned (PDict [("success", PBool true);
                            ("message", PStr "Connector force sync triggered");
                            ("data", PDict [])])).
Proof.
  split.
  - destruct (sync_target_and_message
                (answers 200 "OK" (inr (PDict [("data", PDict [])])))
                api0 "c1" false w0) as [Hsent Hok].
    split; [exact Hsent|].
    destruct (Hok _ _ eq_refl) as (m & Hrun & _). reflexivity.
  - destruct (sync_target_and_message
                (answers 200 "OK" (inr (PDict [("data", PDict [])])))
                api0 "c1" true w0) as [Hsent Hok].
    split; [exact Hsent|].
    destruct (Hok _ _ eq_refl) as (m & Hrun & _). reflexivity.
Defined.

Lemma toggle_table_sent remote self connector_id schema table enabled w :
  sent (snd (API.toggle_table remote self connector_id schema table
               enabled w))
  = (sent w
     ++ [request_for (client self) "PATCH"
           ("connectors/" ++ connector_id ++ "/schemas/" ++ schema
            ++ "/tables/" ++ table)
           (Some (PDict [("enabled", PBool enabled)]))])%list.
Proof.
  unfold API.toggle_table, Client.update_connector_schema, try_except, bind.
  rewrite make_request_run.
  destruct (round_trip remote _) as [resp|e]; simpl;
    [destruct (py_get resp "data" (PDict []))|]; reflexivity.
Qed.

(** The statement of the design document fails: to a 204 with an empty
    body [response.json()] raises, and the operation returns
    [success] false. *)
Lemma toggle_on_204_reports_failure : ~ toggle_succeeds_on_every_2xx.
Proof.
  intros H.
  destruct (H (answers 204 "No Content"
                 (inl "Expecting value: line 1 column 1 (char 0)"))
              api0 "c1" "public" "orders" w0
              {| status_code := 204; reason := "No Content";
                 resp_url := "https://api.fivetran.com/v1/connectors/c1/schemas/public/tables/orders";
                 resp_json := inl "Expecting value: line 1 column 1 (char 0)" |})
    as [_ Hok].
  destruct (Hok eq_refl eq_refl) as (message & data & Hrun & _).
  discriminate Hrun.
Qed.

(** C8, amended.  [toggleTable(connId, schema, table, true)] sends one
    request, a PATCH to
    [connectors/{connId}/schemas/{schema}/tables/{table}] with the body
    [{"enabled": true}].  When the service answers it with a 2xx status
    and a body that is a JSON object, the result has [success] true and
    a message that contains ["enabled"]. *)
Theorem toggle_table_enable
    (remote : http_request -> http_outcome) (self : FivetranAPI)
    (connector_id schema table : string) (w : world) :
  let rq := request_for (client self) "PATCH"
              ("connectors/" ++ connector_id ++ "/schemas/" ++ schema
               ++ "/tables/" ++ table)
              (Some (PDict [("enabled", PBool true)])) in
  sent (snd (API.toggle_table remote self connector_id schema table true w))
  = (sent w ++ [rq])%list
  /\ forall r envelope,
       remote rq = Responded r ->
       is_2xx (status_code r) = true ->
       resp_json r = inr (PDict envelope) ->
       exists message data,
         fst (API.toggle_table remote self connector_id schema table true w)
         = Returned (PDict [("success", PBool true);
                            ("message", PStr message);
                            ("data", data)])
         /\ contains message "enabled" = true.
Proof.
  intros rq. split; [apply toggle_table_sent|].
  intros r envelope Hr Hs Hj.
  unfold API.toggle_table, Client.update_connector_schema, try_except, bind.
  rewrite make_request_run. fold rq.
  rewrite (round_trip_2xx _ _ _ _ Hr Hs Hj). simpl.
  exists ("Table " ++ schema ++ "." ++ table ++ " " ++ "enabled").
  eexists. split; [reflexivity|].
  do 5 apply contains_app_r. apply contains_self.
Qed.

(** The witness: enabling [public.orders] against a service that
    answers 200. *)
Lemma toggle_table_enable_witness :
  sent (snd (API.toggle_table
               (answers 200 "OK" (inr (PDict [("data", PDict [])])))
               api0 "c1" "public" "orders" true w0))
  = [request_for (client api0) "PATCH"
       "connectors/c1/schemas/public/tables/orders"
       (Some (PDict [("enabled", PBool true)]))]
  /\ exists message data,
       fst (API.toggle_table
              (answers 200 "OK" (inr (PDict [("data", PDict [])])))
              api0 "c1" "public" "orders" true w0)
       = Returned (PDict [("success", PBool true);
                          ("message", PStr message);
                          ("data", data)])
       /\ contains message "enabled" = true.
Proof.
  destruct (toggle_table_enable
              (answers 200 "OK" (inr (PDict [("data", PDict [])])))
              api0 "c1" "public" "orders" w0) as [Hsent Hok].
  split; [exact Hsent|].
  exact (Hok _ _ eq_refl eq_refl eq_refl).
Defined.


(** ** List envelopes without items *)

(** C7.  For listGroups and listConnectors: when the transport client
    returns an envelope (a JSON object) that has no [data] key, or whose
    [data] object has no [items] key, the operation returns the empty
    list; it does not raise. *)
Theorem list_without_items_is_empty
    (remote : http_request -> http_outcome) (self : FivetranAPI)
    (op : read_op) (w w1 : world) (envelope : pyval) :
  is_list_op op = true ->
  Client._make_request remote (client self) "GET" (read_endpoint op) None w
  = (Returned envelope, w1) ->
  lacks_items envelope = true ->
  api_read remote self op w = (Returned (PList []), w1).
Proof.
  intros Hop Hrun Hlack.
  destruct envelope as [| | | | | |env]; try discriminate Hlack.
  simpl in Hlack.
  destruct op as [|g|i]; try discriminate Hop; simpl in Hrun; simpl;
    [ unfold API.get_all_groups, Client.list_groups
    | unfold API.get_all_connectors, Client.list_connectors ];
    unfold try_except, bind; rewrite Hrun; simpl;
    (destruct (dict_get env "data") as [[| | | | | |d]|];
     try discriminate Hlack; simpl;
     [ destruct (dict_get d "items"); [discriminate Hlack | reflexivity]
     | reflexivity ]).
Qed.

(** The witness: the connectors of a group, from an envelope without
    [data]. *)
Lemma list_without_items_is_empty_witness :
  api_read (answers 200 "OK" (inr (PDict [("code", PStr "Success")])))
    api0 (ListConnectors (Some "g")) w0
  = (Returned (PList []),
     {| sent := [request_for (client api0) "GET" "groups/g/connectors" None];
        logged := [] |}).
Proof.
  apply (list_without_items_is_empty
           (answers 200 "OK" (inr (PDict [("code", PStr "Success")])))
           api0 (ListConnectors (Some "g")) w0 _
           (PDict [("code", PStr "Success")])); reflexivity.
Defined.

(** ** The shape of wrapped results *)

(** The statement of the design document fails: on success getSchemas
    returns [{"success": True, "data": ...}], a dict with no [message]. *)
Lemma schemas_result_has_no_message : ~ every_wrapped_result_has_a_message.
Proof.
  intros H.
  destruct (H (answers 200 "OK" (inr (PDict [("data", PDict [])])))
              api0 (GetSchemas "c1") w0) as (v & w' & Hrun & Hshape).
  vm_compute in Hrun. injection Hrun as <- _.
  discriminate Hshape.
Qed.

(** C5, amended.  Every wrapped operation returns, and never raises.
    When the client call beneath it raised [e], the result is the
    Operation Result [{"success": False, "message": str(e)}].  When the
    client call returned [data], the result of every operation but
    getSchemas is an Operation Result [{"success": True, "message": m,
    "data": data}] with a string [m]; the result of getSchemas is
    [{"success": True, "data": data}], which has no [message]. *)
Theorem wrapped_result_shape
    (remote : http_request -> http_outcome) (self : FivetranAPI)
    (op : wrapped_op) (w : world) :
  exists v w',
    api_call remote self op w = (Returned v, w')
    /\ match fst (client_call remote (client self) op w) with
       | Raised e =>
           v = PDict [("success", PBool false);
                      ("message", PStr (exc_str e))]
           /\ is_operation_result v = true
       | Returned data =>
           match op with
           | GetSchemas _ =>
               v = PDict [("success", PBool true); ("data", data)]
               /\ py_item v "message" = None
           | _ =>
               (exists m,
                  v = PDict [("success", PBool true);
                             ("message", PStr m);
                             ("data", data)])
               /\ is_operation_result v = true
           end
       end.
Proof.
  destruct op; simpl;
    [ unfold API.activate_connector
    | unfold API.pause_connector
    | unfold API.sync_connector
    | unfold API.get_connector_schemas
    | unfold API.resync_table
    | unfold API.toggle_table
    | unfold API.test_connection ];
    unfold try_except, bind;
    match goal with
    | |- context [match ?c w with _ => _ end] =>
        destruct (c w) as [[data|e] w1]
    end; simpl;
    do 2 eexists; (split; [reflexivity|]);
    (split; [try (eexists; reflexivity); reflexivity | reflexivity]).
Qed.

(** ** The detail projection *)

(** The statement of the design document fails: for a payload with
    [paused] false, the summary's [status] is ["Active"] and the
    detail's [status] is the raw nested object, here [None]. *)
Lemma detail_status_is_not_derived : ~ projections_emit_the_same_status.
Proof.
  intros H.
  specialize (H (PDict [("id", PStr "c1"); ("paused", PBool false)])
                _ _ eq_refl eq_refl).
  discriminate H.
Qed.

(** C6, amended.  For every raw connector payload that the summary
    projection accepts, the detail projection accepts it too and derives
    no Active/Paused value: its [paused] is the raw flag ([None] when
    absent) and its [status] is the raw nested object ([None] when
    absent).  The summary's rule, applied to the [paused] the detail
    emits, gives the [status] the summary emits. *)
Theorem detail_relays_what_summary_derives_from
    (connector summary : pyval) :
  API.connector_summary connector = Returned summary ->
  exists details paused status,
    API.connector_details connector = Returned details
    /\ py_get connector "paused" PNone = Returned paused
    /\ py_get connector "status" PNone = Returned status
    /\ py_item details "paused" = Some paused
    /\ py_item details "status" = Some status
    /\ py_item summary "status"
       = Some (PStr (if negb (py_bool paused) then "Active" else "Paused")).
Proof.
  unfold API.connector_summary, API.connector_details.
  destruct connector as [| | | | |l|d]; simpl; try discriminate.
  destruct (dict_get d "status") as [[| | | | |l'|d']|]; simpl;
    try discriminate;
    intros H; injection H as <-; simpl;
    do 3 eexists; repeat split.
Qed.

(** The witness: a paused connector with a nested status object. *)
Lemma detail_relays_what_summary_derives_from_witness :
  exists details paused status,
    API.connector_details
      (PDict [("id", PStr "c1"); ("paused", PBool true);
              ("status", PDict [("sync_state", PStr "paused")])])
    = Returned details
    /\ py_get (PDict [("id", PStr "c1"); ("paused", PBool true);
                      ("status", PDict [("sync_state", PStr "paused")])])
         "paused" PNone = Returned paused
    /\ py_get (PDict [("id", PStr "c1"); ("paused", PBool true);
                      ("status", PDict [("sync_state", PStr "paused")])])
         "status" PNone = Returned status
    /\ py_item details "paused" = Some paused
    /\ py_item details "status" = Some status
    /\ py_item
         (PDict [("id", PStr "c1"); ("name", PNone); ("service", PNone);
                 ("status", PStr "Paused");
                 ("sync_state", PStr "paused"); ("setup_state", PNone);
                 ("last_sync", PNone); ("failed_at", PNone);
                 ("paused", PBool true); ("group_id", PNone)]) "status"
       = Some (PStr (if negb (py_bool paused) then "Active" else "Paused")).
Proof.
  exact (detail_relays_what_summary_derives_from
           (PDict [("id", PStr "c1"); ("paused", PBool true);
                   ("status", PDict [("sync_state", PStr "paused")])])
           _ eq_refl).
Defined.

(** * Further properties of the client and the service *)

(** ** One request for each call *)

Lemma client_run_sent remote c op w :
  sent (snd (client_run remote c op w))
  = (sent w ++ [op_request c op])%list.
Proof.
  unfold op_request.
  destruct op; simpl;
    [ unfold Client.list_connectors
    | unfold Client.get_connector
    | unfold Client.activate_connector
    | unfold Client.pause_connector
    | unfold Client.sync_connector
    | unfold Client.resync_table
    | unfold Client.get_connector_schemas
    | unfold Client.update_connector_schema
    | unfold Client.list_groups
    | unfold Client.get_group
    | unfold Client.test_connection ];
    unfold bind, lift; rewrite make_request_run;
    (destruct (round_trip remote _) as [resp|e]; simpl; [|reflexivity]);
    (destruct (py_get resp "data" (PDict [])) as [d|e]; simpl;
     [|reflexivity]);
    try reflexivity;
    destruct (py_get d "items" (PList [])); reflexivity.
Qed.

Lemma api_run_client remote a op :
  (exists o, op = inl o
             /\ client_run remote (client a) (api_method op)
                = client_call remote (client a) o)
  \/ (exists o, op = inr o
                /\ client_run remote (client a) (api_method op)
                   = client_read remote (client a) o).
Proof.
  destruct op as [o|o]; [left|right]; exists o; split; try reflexivity;
    destruct o; reflexivity.
Qed.

(** The service sends nothing of its own. *)
Lemma api_run_sent remote a op w :
  sent (snd (api_run remote a op w))
  = sent (snd (client_run remote (client a) (api_method op) w)).
Proof.
  destruct op as [o|o]; destruct o; simpl;
    [ unfold API.activate_connector
    | unfold API.pause_connector
    | unfold API.sync_connector
    | unfold API.get_connector_schemas
    | unfold API.resync_table
    | unfold API.toggle_table
    | unfold API.test_connection
    | unfold API.get_all_groups
    | unfold API.get_all_connectors
    | unfold API.get_connector_details ];
    unfold try_except, bind, lift;
    match goal with
    | |- context [match ?c w with _ => _ end] =>
        destruct (c w) as [[v|e] w1]
    end; simpl; try reflexivity.
  - destruct (py_iter v) as [items|e]; simpl; [|reflexivity].
    destruct (API.for_append API.group_summary items []); reflexivity.
  - destruct (py_iter v) as [items|e]; simpl; [|reflexivity].
    destruct (API.for_append API.connector_summary items []); reflexivity.
  - destruct (API.connector_details v); reflexivity.
Qed.

(** X1.  Every method of the client, whatever the service answers, sends
    exactly one request: the method, path under the base URL and body of
    its row in the table of remote calls, with the key and secret given
    to the constructor, the JSON content type and timeout 30. *)
Theorem client_sends_one_request
    (remote : http_request -> http_outcome) (key secret : string)
    (op : client_op) (w : world) :
  exists rq,
    sent (snd (client_run remote (FivetranClient_init key secret) op w))
    = (sent w ++ [rq])%list
    /\ rq_method rq = op_method op
    /\ rq_url rq = "https://api.fivetran.com/v1/" ++ op_endpoint op
    /\ rq_json rq = op_body op
    /\ rq_auth rq = (key, secret)
    /\ rq_headers rq = [("Content-Type", "application/json")]
    /\ rq_timeout rq = 30.
Proof.
  exists (op_request (FivetranClient_init key secret) op).
  split; [apply client_run_sent|]. repeat split.
Qed.

(** X2.  Every method of the service, whether it returns, reports a
    failure or raises, sends exactly the one request of the client method
    beneath it: it never retries and never sends a request of its own. *)
Theorem api_sends_one_request
    (remote : http_request -> http_outcome) (self : FivetranAPI)
    (op : api_op) (w : world) :
  sent (snd (api_run remote self op w))
  = (sent w ++ [op_request (client self) (api_method op)])%list.
Proof. rewrite api_run_sent. apply client_run_sent. Qed.

(** X3.  No method of the client sends a DELETE: each request is a GET,
    a POST or a PATCH, and it carries a body exactly when it is a
    PATCH. *)
Theorem client_methods_and_bodies
    (remote : http_request -> http_outcome) (c : FivetranClient)
    (op : client_op) (w : world) :
  exists rq,
    sent (snd (client_run remote c op w)) = (sent w ++ [rq])%list
    /\ (rq_method rq = "GET" \/ rq_method rq = "POST"
        \/ rq_method rq = "PATCH")
    /\ (rq_json rq = None <-> rq_method rq <> "PATCH").
Proof.
  exists (op_request c op). split; [apply client_run_sent|].
  destruct op; simpl; (split; [auto|]);
    split; intros H; try discriminate; try reflexivity;
    try (exfalso; apply H; reflexivity); try (intros H'; discriminate).
Qed.

(** ** What is logged *)

(** X4.  [_make_request] writes one ERROR line, ["API request failed: "]
    followed by [str(e)], exactly when it raises an exception of the
    [requests] library; it writes nothing when it returns, and nothing
    when another exception passes through. *)
Theorem make_request_logging
    (remote : http_request -> http_outcome) (self : FivetranClient)
    (method endpoint : string) (data : option pyval) (w : world) :
  let run := Client._make_request remote self method endpoint data w in
  logged (snd run)
  = (logged w
     ++ match fst run with
        | Returned _ => []
        | Raised e =>
            if is_RequestException (exc_type e)
            then [mkLog ClientLogger ERROR
                    ("API request failed: " ++ exc_str e)]
            else []
        end)%list.
Proof. intros run. subst run. rewrite make_request_run. reflexivity. Qed.

(** X5.  A wrapped operation writes one ERROR line of its own, its
    prefix followed by [str(e)], after what the client logged, exactly
    when the client call raised [e]; when the client call returned it
    leaves the world as the client left it. *)
Theorem wrapped_failure_is_logged_once
    (remote : http_request -> http_outcome) (self : FivetranAPI)
    (op : wrapped_op) (w : world) :
  snd (api_call remote self op w)
  = match client_call remote (client self) op w with
    | (Returned _, w1) => w1
    | (Raised e, w1) =>
        {| sent := sent w1;
           logged := logged w1
                     ++ [mkLog ApiLogger ERROR
                           (wrapped_error_prefix op ++ exc_str e)] |}
    end.
Proof.
  destruct op; simpl;
    [ unfold API.activate_connector
    | unfold API.pause_connector
    | unfold API.sync_connector
    | unfold API.get_connector_schemas
    | unfold API.resync_table
    | unfold API.toggle_table
    | unfold API.test_connection ];
    unfold try_except, bind;
    match goal with
    | |- context [match ?c w with _ => _ end] =>
        destruct (c w) as [[v|e] w1]
    end; reflexivity.
Qed.

(** X6.  A read operation writes one ERROR line of its own, its prefix
    followed by [str(e)], exactly when it raises [e], be it the client's
    exception or one met while formatting; when it returns it has logged
    nothing beyond the client. *)
Theorem read_failure_is_logged_once
    (remote : http_request -> http_outcome) (self : FivetranAPI)
    (op : read_op) (w : world) :
  logged (snd (api_read remote self op w))
  = (logged (snd (client_read remote (client self) op w))
     ++ match fst (api_read remote self op w) with
        | Returned _ => []
        | Raised e =>
            [mkLog ApiLogger ERROR (read_error_prefix op ++ exc_str e)]
        end)%list.
Proof.
  destruct op; simpl;
    [ unfold API.get_all_groups
    | unfold API.get_all_connectors
    | unfold API.get_connector_details ];
    unfold try_except, bind, lift;
    match goal with
    | |- context [match ?c w with _ => _ end] =>
        destruct (c w) as [[v|e] w1]
    end; simpl; try reflexivity.
  - destruct (py_iter v) as [items|e]; simpl; [|reflexivity].
    destruct (API.for_append API.group_summary items []); simpl;
      [now rewrite app_nil_r | reflexivity].
  - destruct (py_iter v) as [items|e]; simpl; [|reflexivity].
    destruct (API.for_append API.connector_summary items []); simpl;
      [now rewrite app_nil_r | reflexivity].
  - destruct (API.connector_details v); simpl;
      [now rewrite app_nil_r | reflexivity].
Qed.

(** ** Envelopes *)

#[local] Ltac unfold_client :=
  unfold Client.list_connectors, Client.get_connector,
    Client.activate_connector, Client.pause_connector,
    Client.sync_connector, Client.resync_table,
    Client.get_connector_schemas, Client.update_connector_schema,
    Client.list_groups, Client.get_group, Client.test_connection.

#[local] Ltac unfold_api :=
  unfold API.activate_connector, API.pause_connector, API.sync_connector,
    API.get_connector_schemas, API.resync_table, API.toggle_table,
    API.test_connection, API.get_all_groups, API.get_all_connectors,
    API.get_connector_details.

#[local] Ltac pick_row H :=
  cbn [op_method op_endpoint op_body wrapped_method read_method api_method]
    in H;
  cbn [client_run api_run api_call api_read client_call client_read];
  unfold_api; unfold_client; unfold try_except, bind; cbv zeta.

(** X7.  When the round trip returns a JSON object, every method of the
    client but the two lists returns the value under [data], or the empty
    dict when the object has no [data]; it does not raise, whatever that
    value is. *)
Theorem client_unwraps_data
    (remote : http_request -> http_outcome) (c : FivetranClient)
    (op : client_op) (w w1 : world) (envelope : list (string * pyval)) :
  is_list_method op = false ->
  Client._make_request remote c (op_method op) (op_endpoint op) (op_body op) w
  = (Returned (PDict envelope), w1) ->
  fst (client_run remote c op w) = Returned (data_of envelope)
  /\ sent (snd (client_run remote c op w)) = sent w1.
Proof.
  intros Hop H.
  destruct op; try discriminate Hop; pick_row H; rewrite H;
    split; reflexivity.
Qed.

Lemma client_unwraps_data_witness :
  fst (client_run
         (answers 200 "OK" (inr (PDict [("code", PStr "Success")])))
         (client api0) (CGetGroup "g1") w0)
  = Returned (PDict [])
  /\ sent (snd (client_run
                  (answers 200 "OK" (inr (PDict [("code", PStr "Success")])))
                  (client api0) (CGetGroup "g1") w0))
     = [request_for (client api0) "GET" "groups/g1" None].
Proof.
  exact (client_unwraps_data
           (answers 200 "OK" (inr (PDict [("code", PStr "Success")])))
           (client api0) (CGetGroup "g1") w0 _ _ eq_refl eq_refl).
Defined.

(** X8.  When the round trip of a wrapped operation returns a JSON
    object, the operation reports success and hands on, under [data],
    the value the object has under [data], or the empty dict when it has
    none. *)
Theorem wrapped_success_carries_data
    (remote : http_request -> http_outcome) (self : FivetranAPI)
    (op : wrapped_op) (w w1 : world) (envelope : list (string * pyval)) :
  Client._make_request remote (client self)
    (op_method (wrapped_method op)) (op_endpoint (wrapped_method op))
    (op_body (wrapped_method op)) w
  = (Returned (PDict envelope), w1) ->
  exists result,
    fst (api_call remote self op w) = Returned result
    /\ py_item result "success" = Some (PBool true)
    /\ py_item result "data" = Some (data_of envelope).
Proof.
  intros H.
  destruct op; pick_row H; rewrite H; simpl; eexists; repeat split.
Qed.

Lemma wrapped_success_carries_data_witness :
  exists result,
    fst (api_call
           (answers 200 "OK"
              (inr (PDict [("data", PDict [("setup_tests", PList [])])])))
           api0 (TestConnection "c1") w0)
    = Returned result
    /\ py_item result "success" = Some (PBool true)
    /\ py_item result "data" = Some (PDict [("setup_tests", PList [])]).
Proof.
  exact (wrapped_success_carries_data
           (answers 200 "OK"
              (inr (PDict [("data", PDict [("setup_tests", PList [])])])))
           api0 (TestConnection "c1") w0 _ _ eq_refl).
Defined.

(** X9.  When the round trip returns JSON that is not an object (a
    list, a string, a number, [null]), the [.get] of the client raises
    [AttributeError] naming the type: a wrapped operation reports it as a
    failure with that text as message, although the HTTP call
    succeeded, and a read operation raises it. *)
Theorem non_object_envelope_fails
    (remote : http_request -> http_outcome) (self : FivetranAPI)
    (op : api_op) (w w1 : world) (v : pyval) :
  Client._make_request remote (client self)
    (op_method (api_method op)) (op_endpoint (api_method op))
    (op_body (api_method op)) w
  = (Returned v, w1) ->
  is_dict v = false ->
  let text := "'" ++ type_name v ++ "' object has no attribute 'get'" in
  fst (api_run remote self op w)
  = match op with
    | inl _ => Returned (PDict [("success", PBool false);
                                ("message", PStr text)])
    | inr _ => Raised (mkExc AttributeError text)
    end.
Proof.
  intros H Hv text. subst text.
  destruct op as [o|o]; destruct o; pick_row H; rewrite H;
    destruct v; try discriminate Hv; reflexivity.
Qed.

Lemma non_object_envelope_fails_witness :
  fst (api_run (answers 200 "OK" (inr (PList []))) api0
         (inl (Pause "c1")) w0)
  = Returned (PDict [("success", PBool false);
                     ("message",
                      PStr "'list' object has no attribute 'get'")]).
Proof.
  exact (non_object_envelope_fails (answers 200 "OK" (inr (PList []))) api0
           (inl (Pause "c1")) w0 _ (PList []) eq_refl eq_refl).
Defined.

(** ** Projections and lists *)

Lemma for_append_all f xs : forall formatted,
  Forall (fun x => exists r, f x = Returned r) xs ->
  exists rs,
    API.for_append f xs formatted = Returned (formatted ++ rs)%list
    /\ Forall2 (fun x r => f x = Returned r) xs rs.
Proof.
  induction xs as [|x xs IH]; intros formatted Hall.
  - exists []. split; [simpl; now rewrite app_nil_r | constructor].
  - inversion Hall as [|? ? [r Hr] Hrest]; subst.
    destruct (IH (formatted ++ [r])%list Hrest) as (rs & Hrun & Hrs).
    exists (r :: rs). split.
    + simpl. rewrite Hr. simpl. rewrite Hrun. now rewrite <- app_assoc.
    + now constructor.
Qed.

Lemma for_append_raises f pre x post e : forall formatted,
  Forall (fun y => exists r, f y = Returned r) pre ->
  f x = Raised e ->
  API.for_append f (pre ++ x :: post) formatted = Raised e.
Proof.
  induction pre as [|y pre IH]; intros formatted Hpre Hx; simpl.
  - now rewrite Hx.
  - inversion Hpre as [|? ? [r Hr] Hrest]; subst.
    rewrite Hr. simpl. now apply IH.
Qed.

Lemma readable_projects op x :
  readable op x = true -> exists r, read_projection op x = Returned r.
Proof.
  destruct op; simpl; destruct x as [| | | | | |d]; simpl;
    try discriminate; intros H;
    try (eexists; reflexivity);
    unfold API.connector_summary, API.connector_details; simpl;
    (destruct (dict_get d "status") as [[| | | | | |d']|];
     try discriminate H; simpl; eexists; reflexivity).
Qed.

Lemma unreadable_raises op x :
  readable op x = false ->
  exists text, read_projection op x = Raised (mkExc AttributeError text).
Proof.
  destruct op; simpl; destruct x as [| | | | | |d]; simpl;
    try discriminate; intros H;
    try (eexists; reflexivity);
    unfold API.connector_summary, API.connector_details; simpl;
    (destruct (dict_get d "status") as [[| | | | | |d']|];
     try discriminate H; simpl; eexists; reflexivity).
Qed.

Lemma forallb_readable op xs :
  forallb (readable op) xs = true ->
  Forall (fun x => exists r, read_projection op x = Returned r) xs.
Proof.
  intros H. apply Forall_forall. intros x Hx.
  apply readable_projects.
  rewrite forallb_forall in H. now apply H.
Qed.

(** X10.  A projection returns exactly on the payloads it can read: any
    dict for a group; for the summary and the detail of a connector, a
    dict whose [status], when present, is a dict.  On anything else (a
    payload that is not a dict, a [status] that is [null] or a string)
    it raises [AttributeError].  So the summary and the detail accept the
    same payloads. *)
Theorem projection_returns_iff_readable (op : read_op) (x : pyval) :
  if readable op x
  then exists r, read_projection op x = Returned r
  else exists text,
         read_projection op x = Raised (mkExc AttributeError text).
Proof.
  destruct (readable op x) eqn:H;
    [now apply readable_projects | now apply unreadable_raises].
Qed.

(** X11.  When every item the client hands back can be read, a list
    operation returns one record for each item, in the order of the
    items, each the projection of its item. *)
Theorem list_of_readable_items
    (remote : http_request -> http_outcome) (self : FivetranAPI)
    (op : read_op) (w w1 : world) (v : pyval) (items : list pyval) :
  is_list_op op = true ->
  client_read remote (client self) op w = (Returned v, w1) ->
  py_iter v = Returned items ->
  forallb (readable op) items = true ->
  exists records,
    api_read remote self op w = (Returned (PList records), w1)
    /\ Forall2 (fun x r => read_projection op x = Returned r) items records
    /\ length records = length items.
Proof.
  intros Hop Hrun Hiter Hall.
  destruct (for_append_all (read_projection op) items []
              (forallb_readable _ _ Hall)) as (records & Hloop & Hrec).
  exists records. split; [|split; [assumption|]].
  - destruct op; try discriminate Hop; simpl in *;
      unfold_api; unfold try_except, bind, lift;
      rewrite Hrun, Hiter, Hloop; reflexivity.
  - symmetry. eapply Forall2_length. eassumption.
Qed.

Lemma list_of_readable_items_witness :
  exists records,
    api_read
      (answers 200 "OK"
         (inr (PDict [("data",
                 PDict [("items",
                   PList [PDict [("id", PStr "g1")];
                          PDict [("id", PStr "g2")]])])])))
      api0 ListGroups w0
    = (Returned (PList records),
       {| sent := [request_for (client api0) "GET" "groups" None];
          logged := [] |})
    /\ Forall2 (fun x r => API.group_summary x = Returned r)
         [PDict [("id", PStr "g1")]; PDict [("id", PStr "g2")]] records
    /\ length records = 2%nat.
Proof.
  exact (list_of_readable_items
           (answers 200 "OK"
              (inr (PDict [("data",
                      PDict [("items",
                        PList [PDict [("id", PStr "g1")];
                               PDict [("id", PStr "g2")]])])])))
           api0 ListGroups w0 _ _ _ eq_refl eq_refl eq_refl eq_refl).
Defined.

(** X12.  One item that cannot be read fails the whole list: the
    operation raises [AttributeError] and returns none of the records it
    had formatted before. *)
Theorem one_unreadable_item_fails_the_list
    (remote : http_request -> http_outcome) (self : FivetranAPI)
    (op : read_op) (w w1 : world) (v x : pyval) (pre post : list pyval) :
  is_list_op op = true ->
  client_read remote (client self) op w = (Returned v, w1) ->
  py_iter v = Returned (pre ++ x :: post)%list ->
  forallb (readable op) pre = true ->
  readable op x = false ->
  exists text,
    fst (api_read remote self op w) = Raised (mkExc AttributeError text).
Proof.
  intros Hop Hrun Hiter Hpre Hx.
  destruct (unreadable_raises _ _ Hx) as [text Htext].
  exists text.
  pose proof (for_append_raises (read_projection op) pre x post _ []
                (forallb_readable _ _ Hpre) Htext) as Hloop.
  destruct op; try discriminate Hop; simpl in *;
    unfold_api; unfold try_except, bind, lift;
    rewrite Hrun, Hiter, Hloop; reflexivity.
Qed.

Lemma one_unreadable_item_fails_the_list_witness :
  exists text,
    fst (api_read
           (answers 200 "OK"
              (inr (PDict [("data",
                      PDict [("items",
                        PList [PDict [("id", PStr "c1")];
                               PDict [("id", PStr "c2");
                                      ("status", PNone)]])])])))
           api0 (ListConnectors None) w0)
    = Raised (mkExc AttributeError text).
Proof.
  exact (one_unreadable_item_fails_the_list
           (answers 200 "OK"
              (inr (PDict [("data",
                      PDict [("items",
                        PList [PDict [("id", PStr "c1")];
                               PDict [("id", PStr "c2");
                                      ("status", PNone)]])])])))
           api0 (ListConnectors None) w0 _ _
           (PDict [("id", PStr "c2"); ("status", PNone)])
           [PDict [("id", PStr "c1")]] []
           eq_refl eq_refl eq_refl eq_refl eq_refl).
Defined.

(** X13.  When what the client hands back for [items] cannot be
    iterated ([null], a number, a boolean), a list operation raises the
    [TypeError] of the loop; unlike a missing [items], this is not an
    empty list. *)
Theorem items_not_iterable
    (remote : http_request -> http_outcome) (self : FivetranAPI)
    (op : read_op) (w w1 : world) (v : pyval) :
  is_list_op op = true ->
  client_read remote (client self) op w = (Returned v, w1) ->
  match v with PList _ | PDict _ | PStr _ => False | _ => True end ->
  fst (api_read remote self op w)
  = Raised (mkExc TypeError
              ("'" ++ type_name v ++ "' object is not iterable")).
Proof.
  intros Hop Hrun Hv.
  destruct op; try discriminate Hop; simpl in *;
    unfold_api; unfold try_except, bind, lift; rewrite Hrun;
    destruct v; try contradiction; reflexivity.
Qed.

Lemma items_not_iterable_witness :
  fst (api_read
         (answers 200 "OK"
            (inr (PDict [("data", PDict [("items", PNone)])])))
         api0 ListGroups w0)
  = Raised (mkExc TypeError "'NoneType' object is not iterable").
Proof.
  exact (items_not_iterable
           (answers 200 "OK"
              (inr (PDict [("data", PDict [("items", PNone)])])))
           api0 ListGroups w0 _ PNone eq_refl eq_refl I).
Defined.

(** X14.  The records have fixed keys: whatever the payload holds, a
    group record has exactly [id], [name], [created_at], a summary record
    the ten keys of [summary_keys] and a detail record the fifteen keys
    of [detail_keys], in that order; other keys of the payload are
    dropped and missing ones are there with their default. *)
Theorem records_have_fixed_keys (op : read_op) (payload record : pyval) :
  read_projection op payload = Returned record ->
  exists items, record = PDict items /\ map fst items = record_keys op.
Proof.
  destruct op; simpl;
    unfold API.group_summary, API.connector_summary, API.connector_details;
    destruct payload as [| | | | | |d]; simpl; try discriminate;
    try (intros H; injection H as <-; eexists; split; reflexivity);
    (destruct (dict_get d "status") as [[| | | | | |d']|]; simpl;
     try discriminate; intros H; injection H as <-;
     eexists; split; reflexivity).
Qed.

Lemma records_have_fixed_keys_witness :
  exists items,
    PDict [("id", PNone); ("name", PStr "G1"); ("created_at", PNone)]
    = PDict items
    /\ map fst items = ["id"; "name"; "created_at"].
Proof.
  exact (records_have_fixed_keys ListGroups
           (PDict [("name", PStr "G1"); ("extra", PInt 1)]) _ eq_refl).
Defined.

(** X15.  A detail response whose envelope has no [data] (an error body
    sent with a 2xx status, say) is not an error: [get_connector_details]
    returns a record whose fifteen fields are all [None]. *)
Theorem details_of_missing_data
    (remote : http_request -> http_outcome) (self : FivetranAPI)
    (connector_id : string) (w w1 : world)
    (envelope : list (string * pyval)) :
  Client._make_request remote (client self) "GET"
    ("connectors/" ++ connector_id) None w
  = (Returned (PDict envelope), w1) ->
  dict_get envelope "data" = None ->
  API.get_connector_details remote self connector_id w
  = (Returned (PDict (map (fun k => (k, PNone)) detail_keys)), w1).
Proof.
  intros H Hd.
  unfold API.get_connector_details, Client.get_connector, try_except, bind.
  rewrite H. simpl. rewrite Hd. reflexivity.
Qed.

Lemma details_of_missing_data_witness :
  API.get_connector_details
    (answers 200 "OK" (inr (PDict [("code", PStr "NotFound")])))
    api0 "c1" w0
  = (Returned (PDict (map (fun k => (k, PNone)) detail_keys)),
     {| sent := [request_for (client api0) "GET" "connectors/c1" None];
        logged := [] |}).
Proof.
  exact (details_of_missing_data
           (answers 200 "OK" (inr (PDict [("code", PStr "NotFound")])))
           api0 "c1" w0 _ _ eq_refl eq_refl).
Defined.

(** ** The metrics of the connectors page *)

Lemma counts_add_up records :
  (forall r, In r records ->
     exists paused,
       py_item r "status"
       = Some (PStr (if py_bool paused then "Paused" else "Active"))) ->
  exists a p,
    active_count records = Some a
    /\ paused_count records = Some p
    /\ (a + p)%nat = length records.
Proof.
  unfold active_count, paused_count.
  induction records as [|r records IH]; intros H.
  - exists 0%nat, 0%nat. repeat split.
  - destruct IH as (a & p & Ha & Hp & Hsum).
    { intros r' Hr'. apply H. now right. }
    destruct (H r (or_introl eq_refl)) as [paused Hs].
    simpl. rewrite Hs, Ha, Hp.
    destruct (py_bool paused); simpl.
    + exists a, (S p). repeat split. simpl in Hsum. lia.
    + exists (S a), p. repeat split. simpl. lia.
Qed.

(** X16.  On the connectors page the two counts are defined and add up
    to the total: for every list [get_all_connectors] returns, the
    number of records with status ["Active"] plus the number with status
    ["Paused"] is the length of the list. *)
Theorem metrics_add_up
    (remote : http_request -> http_outcome) (self : FivetranAPI)
    (group_id : option string) (w w' : world) (records : list pyval) :
  API.get_all_connectors remote self group_id w
  = (Returned (PList records), w') ->
  exists a p,
    active_count records = Some a
    /\ paused_count records = Some p
    /\ (a + p)%nat = length records.
Proof.
  intros H. apply counts_add_up. intros r Hin.
  destruct (get_all_connectors_returned _ _ _ _ _ _ H) as [items Hloop].
  destruct (for_append_In _ _ _ _ _ Hloop Hin) as [[] | (c & _ & Hc)].
  destruct (connector_summary_status _ _ Hc) as (paused & _ & Hs).
  now exists paused.
Qed.

Lemma metrics_add_up_witness :
  exists a p,
    active_count
      [PDict [("id", PStr "c1"); ("name", PNone); ("service", PNone);
              ("status", PStr "Paused"); ("sync_state", PNone);
              ("setup_state", PNone); ("last_sync", PNone);
              ("failed_at", PNone); ("paused", PBool true);
              ("group_id", PNone)];
       PDict [("id", PStr "c2"); ("name", PNone); ("service", PNone);
              ("status", PStr "Active"); ("sync_state", PNone);
              ("setup_state", PNone); ("last_sync", PNone);
              ("failed_at", PNone); ("paused", PBool false);
              ("group_id", PNone)]] = Some a
    /\ paused_count
         [PDict [("id", PStr "c1"); ("name", PNone); ("service", PNone);
                 ("status", PStr "Paused"); ("sync_state", PNone);
                 ("setup_state", PNone); ("last_sync", PNone);
                 ("failed_at", PNone); ("paused", PBool true);
                 ("group_id", PNone)];
          PDict [("id", PStr "c2"); ("name", PNone); ("service", PNone);
                 ("status", PStr "Active"); ("sync_state", PNone);
                 ("setup_state", PNone); ("last_sync", PNone);
                 ("failed_at", PNone); ("paused", PBool false);
                 ("group_id", PNone)]] = Some p
    /\ (a + p)%nat = 2%nat.
Proof.
  exact (metrics_add_up
           (answers 200 "OK"
              (inr (PDict [("data",
                      PDict [("items",
                        PList [PDict [("id", PStr "c1");
                                      ("paused", PBool true)];
                               PDict [("id", PStr "c2")]])])])))
           api0 None w0 _ _ eq_refl).
Defined.
